(** * Invoice draft engine of the TSTINVO front end

    A shallow embedding of the invoice form logic of
    [frontend/src/App.js]: the totals arithmetic ([calculateTotals]),
    the edit handlers of the invoice form ([handleItemChange],
    [handleDiscountChange], [handleGSTChange], [addItem], [removeItem],
    [handlePaymentTypeChange], [handleCustomerChange]) and the submission
    routine ([createInvoice]), followed by the properties proved about
    them. *)

From Stdlib Require Import ZArith QArith Qreduction Qcanon Bool Ascii String Lia.
From stdpp Require Import base list.

Local Open Scope Z_scope.

(** ** The fragment of JavaScript the handlers rely on *)

Module JS.

(** *** Numbers

    A JavaScript number is modelled as a not-a-number value, one of the
    two infinities, or a finite value.  Finite values are exact rationals
    kept in lowest terms: the rounding of binary64 arithmetic, its
    overflow to an infinity and underflow to zero, and the sign of zero
    are not represented. *)

Inductive number : Type :=
  | NaN
  | Infinity (negative : bool)
  | Finite (q : Q).

Definition zero : number := Finite 0.
Definition one : number := Finite 1.
Definition hundred : number := Finite 100.

Definition Qis_zero (q : Q) : bool := Z.eqb (Qnum q) 0.
Definition Qis_neg (q : Q) : bool := Z.ltb (Qnum q) 0.

Definition neg (x : number) : number :=
  match x with
  | NaN => NaN
  | Infinity s => Infinity (negb s)
  | Finite q => Finite (Qred (Qopp q))
  end.

(** [x + y] *)
Definition add (x y : number) : number :=
  match x, y with
  | NaN, _ | _, NaN => NaN
  | Infinity s, Infinity t => if Bool.eqb s t then Infinity s else NaN
  | Infinity s, Finite _ => Infinity s
  | Finite _, Infinity t => Infinity t
  | Finite a, Finite b => Finite (Qred (a + b))
  end.

(** [x - y] *)
Definition sub (x y : number) : number :=
  match x, y with
  | NaN, _ | _, NaN => NaN
  | Infinity s, Infinity t => if Bool.eqb s t then NaN else Infinity s
  | Infinity s, Finite _ => Infinity s
  | Finite _, Infinity t => Infinity (negb t)
  | Finite a, Finite b => Finite (Qred (a - b))
  end.

(** [x * y] *)
Definition mul (x y : number) : number :=
  match x, y with
  | NaN, _ | _, NaN => NaN
  | Infinity s, Infinity t => Infinity (xorb s t)
  | Infinity s, Finite b =>
      if Qis_zero b then NaN else Infinity (xorb s (Qis_neg b))
  | Finite a, Infinity t =>
      if Qis_zero a then NaN else Infinity (xorb (Qis_neg a) t)
  | Finite a, Finite b => Finite (Qred (a * b))
  end.

(** [x / y] *)
Definition div (x y : number) : number :=
  match x, y with
  | NaN, _ | _, NaN => NaN
  | Infinity _, Infinity _ => NaN
  | Infinity s, Finite b => Infinity (xorb s (Qis_neg b))
  | Finite _, Infinity _ => zero
  | Finite a, Finite b =>
      if Qis_zero b then
        if Qis_zero a then NaN else Infinity (Qis_neg a)
      else Finite (Qred (a / b))
  end.

(** [x <= y]; any comparison with [NaN] is false. *)
Definition le (x y : number) : bool :=
  match x, y with
  | NaN, _ | _, NaN => false
  | Infinity s, Infinity t => s || negb t
  | Infinity s, Finite _ => s
  | Finite _, Infinity t => negb t
  | Finite a, Finite b => Qle_bool a b
  end.

(** [x < y] *)
Definition lt (x y : number) : bool :=
  match x, y with
  | NaN, _ | _, NaN => false
  | _, _ => negb (le y x)
  end.

(** ToBoolean on a number: [NaN] and zero are falsy. *)
Definition truthy (x : number) : bool :=
  match x with
  | NaN => false
  | Infinity _ => true
  | Finite q => negb (Qis_zero q)
  end.

(** [x || d] on numbers. *)
Definition or_else (x d : number) : number := if truthy x then x else d.

(** *** Strings

    A string is a sequence of code units; the code units modelled are
    those below 256. *)

Definition code (c : ascii) : Z := Z.of_N (N_of_ascii c).

(** The white space and line terminator code units that [trim] and
    [parseFloat] strip: TAB, LF, VT, FF, CR, SP and NBSP. *)
Definition isWhiteSpace (c : ascii) : bool :=
  let n := code c in
  ((9 <=? n) && (n <=? 13)) || (n =? 32) || (n =? 160).

Fixpoint trimStart (s : string) : string :=
  match s with
  | EmptyString => EmptyString
  | String c s' => if isWhiteSpace c then trimStart s' else s
  end.

Fixpoint trimEnd (s : string) : string :=
  match s with
  | EmptyString => EmptyString
  | String c s' =>
      match trimEnd s' with
      | EmptyString =>
          if isWhiteSpace c then EmptyString else String c EmptyString
      | t => String c t
      end
  end.

(** [s.trim()] *)
Definition trim (s : string) : string := trimEnd (trimStart s).

(** ToBoolean on a string: only the empty string is falsy. *)
Definition truthy_string (s : string) : bool :=
  match s with
  | EmptyString => false
  | String _ _ => true
  end.

(** *** parseFloat

    [parseFloat s] skips leading white space and reads the longest prefix
    that is a StrDecimalLiteral: an optional sign followed by [Infinity]
    or by decimal digits with an optional fraction and an optional
    exponent.  Without such a prefix the result is [NaN]. *)

Definition isDigit (c : ascii) : bool :=
  let n := code c in (48 <=? n) && (n <=? 57).

Definition digitValue (c : ascii) : Z := code c - 48.

(** Reads a maximal run of decimal digits: the value read on top of
    [acc], the number of digits consumed on top of [n], and the rest. *)
Fixpoint readDigits (s : string) (acc : Z) (n : Z) : Z * Z * string :=
  match s with
  | String c s' =>
      if isDigit c then readDigits s' (10 * acc + digitValue c) (n + 1)
      else (acc, n, s)
  | EmptyString => (acc, n, s)
  end.

(** [10 ^ k] for any integer [k]. *)
Definition pow10 (k : Z) : Q :=
  if 0 <=? k then inject_Z (10 ^ k) else Qinv (inject_Z (10 ^ (- k))).

(** The ExponentPart after a mantissa: [e] or [E], an optional sign and
    at least one digit; anything else is not part of the literal and
    counts as exponent 0. *)
Definition readExponent (s : string) : Z :=
  match s with
  | String c s' =>
      if (code c =? 101) || (code c =? 69) then
        match s' with
        | String d s'' =>
            if code d =? 45 then
              let '(v, n, _) := readDigits s'' 0 0 in
              if 0 <? n then - v else 0
            else if code d =? 43 then
              let '(v, n, _) := readDigits s'' 0 0 in
              if 0 <? n then v else 0
            else
              let '(v, n, _) := readDigits s' 0 0 in
              if 0 <? n then v else 0
        | EmptyString => 0
        end
      else 0
  | EmptyString => 0
  end.

(** StrUnsignedDecimalLiteral, without the [Infinity] alternative. *)
Definition readUnsignedDecimal (s : string) : option Q :=
  let '(ip, ni, r) := readDigits s 0 0 in
  match r with
  | String c r' =>
      if code c =? 46 then
        let '(m, n, r'') := readDigits r' ip ni in
        if 0 <? n then
          Some (Qred (inject_Z m * pow10 (readExponent r'' - (n - ni))))
        else None
      else if 0 <? ni then Some (Qred (inject_Z ip * pow10 (readExponent r)))
      else None
  | EmptyString => if 0 <? ni then Some (Qred (inject_Z ip)) else None
  end.

Definition readUnsigned (s : string) : number :=
  if String.prefix "Infinity" s then Infinity false
  else match readUnsignedDecimal s with
       | Some q => Finite q
       | None => NaN
       end.

Definition parseFloat (s : string) : number :=
  match trimStart s with
  | String c r =>
      if code c =? 45 then neg (readUnsigned r)
      else if code c =? 43 then readUnsigned r
      else readUnsigned (String c r)
  | EmptyString => NaN
  end.

End JS.
Import JS.

(** ** Data model

    The object held by the [invoice] state variable (lines 25-37), its
    line items and its customer record. *)

Inductive PaymentType : Type := Cash | Credit.

Record LineItem : Type := mkLineItem {
  description : string;
  quantity : number;
  rate : number;
  amount : number
}.

(** A customer object is built one property at a time by
    [handleCustomerChange]; a property never written is [undefined],
    here [None]. *)
Record Customer : Type := mkCustomer {
  name : option string;
  mobile : option string;
  address : option string
}.

Record Invoice : Type := mkInvoice {
  payment_type : PaymentType;
  customer : option Customer;
  items : list LineItem;
  subtotal : number;
  discount : number;
  gst_rate : number;
  gst_amount : number;
  total : number;
  notes : string;
  terms : string;
  due_date : option string
}.

(** The object literal [{ description: '', quantity: 1, rate: 0, amount: 0 }]
    of lines 28, 143 and 204. *)
Definition blankItem : LineItem :=
  {| description := ""; quantity := one; rate := zero; amount := zero |}.

(** The initial value of the [invoice] state (lines 25-37), which is also
    the object the form is reset to (lines 201-213). *)
Definition emptyInvoice : Invoice :=
  {| payment_type := Cash;
     customer := None;
     items := [blankItem];
     subtotal := zero;
     discount := zero;
     gst_rate := zero;
     gst_amount := zero;
     total := zero;
     notes := "";
     terms := "";
     due_date := None |}.

(** ** Totals arithmetic (lines 82-94) *)

Definition calculateItemAmount (quantity rate : number) : number :=
  mul quantity rate.

Record Totals : Type := mkTotals {
  totals_subtotal : number;
  totals_gstAmount : number;
  totals_total : number
}.

(** [items.reduce((sum, item) => sum + item.amount, 0)] *)
Definition sumAmounts (items : list LineItem) : number :=
  fold_left (fun sum item => add sum (amount item)) items zero.

Definition calculateTotals (items : list LineItem) (discount gstRate : number)
  : Totals :=
  let subtotal := sumAmounts items in
  let discountAmount := or_else discount zero in
  let afterDiscount := sub subtotal discountAmount in
  let gstAmount := div (mul afterDiscount (or_else gstRate zero)) hundred in
  let total := add afterDiscount gstAmount in
  {| totals_subtotal := subtotal;
     totals_gstAmount := gstAmount;
     totals_total := total |}.

(** ** Edit handlers (lines 96-178)

    Every handler ends in one [setInvoice] call; the handler is modelled
    as the function from the invoice it is applied to, to the invoice it
    installs.  The item objects of the form are never shared between two
    rows (each comes from its own object literal), so the in-place write
    of [handleItemChange] is a functional update of one row. *)

Inductive JsError : Type := TypeError.

Inductive Completion (A : Type) : Type :=
  | Returns (a : A)
  | Throws (e : JsError).
Arguments Returns {A} a.
Arguments Throws {A} e.

(** [xs[index]] for an integer [index]: [undefined] outside the list. *)
Definition at_index {A : Type} (xs : list A) (index : Z) : option A :=
  if index <? 0 then None else xs !! Z.to_nat index.

(** The [(field, value)] pairs [handleItemChange] is called with: a text
    for ['description'] (line 452), a number for ['quantity'] and ['rate']
    (lines 462 and 473). *)
Inductive ItemEdit : Type :=
  | SetDescription (value : string)
  | SetQuantity (value : number)
  | SetRate (value : number).

(** [item[field] = value], followed for the two numeric fields by the
    recomputation of [item.amount] (lines 98-102). *)
Definition applyItemEdit (e : ItemEdit) (item : LineItem) : LineItem :=
  match e with
  | SetDescription v =>
      {| description := v; quantity := quantity item; rate := rate item;
         amount := amount item |}
  | SetQuantity v =>
      {| description := description item; quantity := v; rate := rate item;
         amount := calculateItemAmount v (rate item) |}
  | SetRate v =>
      {| description := description item; quantity := quantity item; rate := v;
         amount := calculateItemAmount (quantity item) v |}
  end.

Definition withTotals (inv : Invoice) (newItems : list LineItem) (t : Totals)
  : Invoice :=
  {| payment_type := payment_type inv;
     customer := customer inv;
     items := newItems;
     subtotal := totals_subtotal t;
     discount := discount inv;
     gst_rate := gst_rate inv;
     gst_amount := totals_gstAmount t;
     total := totals_total t;
     notes := notes inv;
     terms := terms inv;
     due_date := due_date inv |}.

(** Lines 96-113.  [newItems[index]] is [undefined] when [index] is not a
    position of the list, and the property write on it throws. *)
Definition handleItemChange (index : Z) (e : ItemEdit) (invoice : Invoice)
  : Completion Invoice :=
  match at_index (items invoice) index with
  | None => Throws TypeError
  | Some item =>
      let newItems := <[Z.to_nat index := applyItemEdit e item]> (items invoice) in
      let totals :=
        calculateTotals newItems (discount invoice) (gst_rate invoice) in
      Returns (withTotals invoice newItems totals)
  end.

(** Lines 115-126. *)
Definition handleDiscountChange (value : string) (invoice : Invoice) : Invoice :=
  let discount := or_else (parseFloat value) zero in
  let totals := calculateTotals (items invoice) discount (gst_rate invoice) in
  {| payment_type := payment_type invoice;
     customer := customer invoice;
     items := items invoice;
     subtotal := totals_subtotal totals;
     discount := discount;
     gst_rate := gst_rate invoice;
     gst_amount := totals_gstAmount totals;
     total := totals_total totals;
     notes := notes invoice;
     terms := terms invoice;
     due_date := due_date invoice |}.

(** Lines 128-138. *)
Definition handleGSTChange (value : string) (invoice : Invoice) : Invoice :=
  let gstRate := or_else (parseFloat value) zero in
  let totals := calculateTotals (items invoice) (discount invoice) gstRate in
  {| payment_type := payment_type invoice;
     customer := customer invoice;
     items := items invoice;
     subtotal := subtotal invoice;
     discount := discount invoice;
     gst_rate := gstRate;
     gst_amount := totals_gstAmount totals;
     total := totals_total totals;
     notes := notes invoice;
     terms := terms invoice;
     due_date := due_date invoice |}.

(** Lines 140-145. *)
Definition addItem (invoice : Invoice) : Invoice :=
  {| payment_type := payment_type invoice;
     customer := customer invoice;
     items := items invoice ++ [blankItem];
     subtotal := subtotal invoice;
     discount := discount invoice;
     gst_rate := gst_rate invoice;
     gst_amount := gst_amount invoice;
     total := total invoice;
     notes := notes invoice;
     terms := terms invoice;
     due_date := due_date invoice |}.

(** [xs.filter((x, i) => keep x i)], the callback seeing positions [i],
    [i + 1], ... *)
Fixpoint filterFrom {A : Type} (keep : A -> Z -> bool) (i : Z) (xs : list A)
  : list A :=
  match xs with
  | [] => []
  | x :: xs' =>
      if keep x i then x :: filterFrom keep (i + 1) xs'
      else filterFrom keep (i + 1) xs'
  end.

(** Lines 147-160. *)
Definition removeItem (index : Z) (invoice : Invoice) : Invoice :=
  if 1 <? Z.of_nat (length (items invoice)) then
    let newItems :=
      filterFrom (fun _ i => negb (i =? index)) 0 (items invoice) in
    let totals :=
      calculateTotals newItems (discount invoice) (gst_rate invoice) in
    withTotals invoice newItems totals
  else invoice.

(** Lines 162-168. *)
Definition handlePaymentTypeChange (type : PaymentType) (invoice : Invoice)
  : Invoice :=
  {| payment_type := type;
     customer := match type with
                 | Cash => None
                 | Credit => customer invoice
                 end;
     items := items invoice;
     subtotal := subtotal invoice;
     discount := discount invoice;
     gst_rate := gst_rate invoice;
     gst_amount := gst_amount invoice;
     total := total invoice;
     notes := notes invoice;
     terms := terms invoice;
     due_date := due_date invoice |}.

Inductive CustomerField : Type := NameField | MobileField | AddressField.

(** [{ ...c, [field]: value }]; spreading [null] contributes nothing. *)
Definition spreadCustomer (c : option Customer) (field : CustomerField)
    (value : string) : Customer :=
  let base :=
    match c with
    | Some c' => c'
    | None => {| name := None; mobile := None; address := None |}
    end in
  match field with
  | NameField =>
      {| name := Some value; mobile := mobile base; address := address base |}
  | MobileField =>
      {| name := name base; mobile := Some value; address := address base |}
  | AddressField =>
      {| name := name base; mobile := mobile base; address := Some value |}
  end.

(** Lines 170-178. *)
Definition handleCustomerChange (field : CustomerField) (value : string)
    (invoice : Invoice) : Invoice :=
  {| payment_type := payment_type invoice;
     customer := Some (spreadCustomer (customer invoice) field value);
     items := items invoice;
     subtotal := subtotal invoice;
     discount := discount invoice;
     gst_rate := gst_rate invoice;
     gst_amount := gst_amount invoice;
     total := total invoice;
     notes := notes invoice;
     terms := terms invoice;
     due_date := due_date invoice |}.

(** The inline writers of [due_date], [notes] and [terms] (lines 423, 556
    and 566). *)
Definition setDueDate (value : string) (invoice : Invoice) : Invoice :=
  {| payment_type := payment_type invoice;
     customer := customer invoice;
     items := items invoice;
     subtotal := subtotal invoice;
     discount := discount invoice;
     gst_rate := gst_rate invoice;
     gst_amount := gst_amount invoice;
     total := total invoice;
     notes := notes invoice;
     terms := terms invoice;
     due_date := Some value |}.

Definition setNotes (value : string) (invoice : Invoice) : Invoice :=
  {| payment_type := payment_type invoice;
     customer := customer invoice;
     items := items invoice;
     subtotal := subtotal invoice;
     discount := discount invoice;
     gst_rate := gst_rate invoice;
     gst_amount := gst_amount invoice;
     total := total invoice;
     notes := value;
     terms := terms invoice;
     due_date := due_date invoice |}.

Definition setTerms (value : string) (invoice : Invoice) : Invoice :=
  {| payment_type := payment_type invoice;
     customer := customer invoice;
     items := items invoice;
     subtotal := subtotal invoice;
     discount := discount invoice;
     gst_rate := gst_rate invoice;
     gst_amount := gst_amount invoice;
     total := total invoice;
     notes := notes invoice;
     terms := value;
     due_date := due_date invoice |}.

(** ** Submission (lines 180-226) *)

(** The two checks of lines 184-193, named after the conditions they
    report. *)
Inductive ValidationError : Type :=
  | MissingLineItemDescription
  | MissingCustomerName.

Definition validationMessage (e : ValidationError) : string :=
  match e with
  | MissingLineItemDescription =>
      "Please add at least one item with description"
  | MissingCustomerName => "Please enter customer name for credit bills"
  end.

(** [item.description.trim()] as a condition. *)
Definition hasDescription (item : LineItem) : bool :=
  truthy_string (trim (description item)).

(** [invoice.customer?.name?.trim()] as a condition: [undefined] when the
    customer or its name is missing. *)
Definition customerNameGiven (c : option Customer) : bool :=
  match c with
  | None => false
  | Some c' =>
      match name c' with
      | None => false
      | Some n => truthy_string (trim n)
      end
  end.

Definition isCredit (t : PaymentType) : bool :=
  match t with
  | Credit => true
  | Cash => false
  end.

Definition validateForSubmission (invoice : Invoice) : option ValidationError :=
  if negb (existsb hasDescription (items invoice)) then
    Some MissingLineItemDescription
  else if isCredit (payment_type invoice)
          && negb (customerNameGiven (customer invoice)) then
    Some MissingCustomerName
  else None.

(** What [axios.post] comes back with: a rejected promise, or a response
    whose [data] is truthy or not. *)
Inductive PostReply : Type :=
  | Rejected
  | Resolved (data : bool).

(** What [createInvoice] does to the outside, in order. *)
Inductive Effect : Type :=
  | SetLoading (b : bool)
  | Alert (message : string)
  | Post (body : Invoice)
  | ConsoleError
  | FetchInvoices
  | FetchCustomers
  | FetchSummary.

(** Lines 180-226; [post] stands for the invoice store behind
    [axios.post].  The result is the invoice state afterwards and the
    effects performed. *)
Definition createInvoice (post : Invoice -> PostReply) (invoice : Invoice)
  : Invoice * list Effect :=
  match validateForSubmission invoice with
  | Some e =>
      (invoice, [SetLoading true; Alert (validationMessage e); SetLoading false])
  | None =>
      match post invoice with
      | Resolved true =>
          (emptyInvoice,
           [SetLoading true; Post invoice;
            Alert "Invoice created successfully!";
            FetchInvoices; FetchCustomers; FetchSummary;
            SetLoading false])
      | Resolved false =>
          (invoice, [SetLoading true; Post invoice; SetLoading false])
      | Rejected =>
          (invoice,
           [SetLoading true; Post invoice; ConsoleError;
            Alert "Failed to create invoice. Please try again.";
            SetLoading false])
      end
  end.


(** ** The form as a transition system

    One action per user event of the invoice form.  A handler that throws
    installs nothing, so the invoice stays as it was. *)

Inductive Action : Type :=
  | ItemChange (index : Z) (e : ItemEdit)
  | DiscountChange (value : string)
  | GSTChange (value : string)
  | AddItem
  | RemoveItem (index : Z)
  | PaymentTypeChange (type : PaymentType)
  | CustomerChange (field : CustomerField) (value : string)
  | DueDateChange (value : string)
  | NotesChange (value : string)
  | TermsChange (value : string)
  | Submit (post : Invoice -> PostReply).

Definition dispatch (a : Action) (invoice : Invoice) : Completion Invoice :=
  match a with
  | ItemChange index e => handleItemChange index e invoice
  | DiscountChange v => Returns (handleDiscountChange v invoice)
  | GSTChange v => Returns (handleGSTChange v invoice)
  | AddItem => Returns (addItem invoice)
  | RemoveItem index => Returns (removeItem index invoice)
  | PaymentTypeChange t => Returns (handlePaymentTypeChange t invoice)
  | CustomerChange f v => Returns (handleCustomerChange f v invoice)
  | DueDateChange v => Returns (setDueDate v invoice)
  | NotesChange v => Returns (setNotes v invoice)
  | TermsChange v => Returns (setTerms v invoice)
  | Submit post => Returns (fst (createInvoice post invoice))
  end.

Definition step (invoice : Invoice) (a : Action) : Invoice :=
  match dispatch a invoice with
  | Returns invoice' => invoice'
  | Throws _ => invoice
  end.

Definition run (actions : list Action) (invoice : Invoice) : Invoice :=
  fold_left step actions invoice.

(** The customer inputs are rendered for credit bills only (line 381), so
    the form can issue a [CustomerChange] only while the payment type is
    [Credit]. *)
Definition offered (a : Action) (invoice : Invoice) : bool :=
  match a with
  | CustomerChange _ _ => isCredit (payment_type invoice)
  | _ => true
  end.

Fixpoint offeredAll (actions : list Action) (invoice : Invoice) : bool :=
  match actions with
  | [] => true
  | a :: rest => offered a invoice && offeredAll rest (step invoice a)
  end.

(** ** Invariants of the invoice record *)

(** Invariants 1-3: the stored totals agree with the items, the discount
    and the tax rate. *)
Record TotalsConsistent (inv : Invoice) : Prop := {
  subtotal_is_sum : subtotal inv = sumAmounts (items inv);
  gst_amount_on_discounted :
    gst_amount inv =
    div (mul (sub (subtotal inv) (discount inv)) (gst_rate inv)) hundred;
  total_is_sum :
    total inv = add (sub (subtotal inv) (discount inv)) (gst_amount inv)
}.

(** [discount] and [gst_rate] are only ever stored through [... || 0]. *)
Definition Normalised (x : number) : Prop := or_else x zero = x.

(** Invariant 5: a customer record only on credit bills. *)
Definition CustomerOnlyOnCredit (inv : Invoice) : Prop :=
  customer inv <> None -> payment_type inv = Credit.

(** The customer name check of line 190 fails: no customer object, no
    [name] on it, or a name that trims to the empty string. *)
Definition CustomerNameMissing (c : option Customer) : Prop :=
  c = None \/
  exists c', c = Some c' /\
    (name c' = None \/ exists n, name c' = Some n /\ trim n = ""%string).

(** Every code unit of the text is white space. *)
Fixpoint allWhiteSpace (s : string) : bool :=
  match s with
  | EmptyString => true
  | String c s' => isWhiteSpace c && allWhiteSpace s'
  end.

(** The text, after its leading white space, starts with a minus sign. *)
Definition hasMinusSign (value : string) : bool :=
  match trimStart value with
  | String c _ => code c =? 45
  | EmptyString => false
  end.

Definition Blank (item : LineItem) : Prop := trim (description item) = ""%string.

(** A number whose finite value is in lowest terms; every result of an
    arithmetic operation is. *)
Definition Reduced (x : number) : Prop :=
  match x with
  | Finite q => Qred q = q
  | _ => True
  end.

(** Not a number below zero: [NaN] or at least zero. *)
Definition NonNegative (x : number) : Prop := x = NaN \/ le zero x = true.

(** The invariant the handlers maintain: invariants 1-3 together with the
    normal form of the two stored inputs of [calculateTotals]. *)
Record WellFormed (inv : Invoice) : Prop := {
  wf_totals : TotalsConsistent inv;
  wf_discount : Normalised (discount inv);
  wf_gst_rate : Normalised (gst_rate inv)
}.

(** The callback of line 149. *)
Abbreviation dropIndex index :=
  (fun (_ : LineItem) (i : Z) => negb (i =? index)).

(** ** Sample drafts *)

(** One described row, 2 x 50, taxed at 18 percent. *)
Definition describedInvoice : Invoice :=
  run [ItemChange 0 (SetDescription "Widget"); ItemChange 0 (SetQuantity (Finite 2));
       ItemChange 0 (SetRate (Finite 50)); GSTChange "18"] emptyInvoice.

(** Two rows with amounts 50 and 7. *)
Definition twoRows : Invoice :=
  run [ItemChange 0 (SetDescription "Widget"); ItemChange 0 (SetRate (Finite 50));
       AddItem; ItemChange 1 (SetRate (Finite 7))] emptyInvoice.

(** ** The sum of invariant 1

    The sum of the amounts as the invariant writes it, independently of
    the reduce of line 87: the amounts of rows 0, 1, ... added in row
    order, [sumOfFirst n] being the sum over the first [n] rows. *)
Fixpoint sumOfFirst (n : nat) (rows : list LineItem) : number :=
  match n with
  | O => zero
  | S k =>
      add (sumOfFirst k rows)
          (match rows !! k with
           | Some row => amount row
           | None => zero
           end)
  end.

Definition sumOfAmounts (rows : list LineItem) : number :=
  sumOfFirst (length rows) rows.

(** ** Well-formed numeric texts

    A text is a number when all of it, up to white space around it, is a
    StrDecimalLiteral; anything else is malformed. *)






(** ** The inputs and labels of the page

    The expressions of the markup that feed the handlers or show the
    state. *)

(** [s || d] on a property that may be [undefined]. *)
Definition or_else_string (s : option string) (d : string) : string :=
  match s with
  | Some s' => if truthy_string s' then s' else d
  | None => d
  end.

Definition customerProperty (field : CustomerField) (c : Customer)
  : option string :=
  match field with
  | NameField => name c
  | MobileField => mobile c
  | AddressField => address c
  end.

(** [invoice.customer?.name || ''] and its two siblings: what the three
    customer inputs show (lines 391, 401 and 410). *)
Definition customerInputValue (field : CustomerField) (invoice : Invoice)
  : string :=
  or_else_string
    (match customer invoice with
     | Some c => customerProperty field c
     | None => None
     end) "".

(** [inv.customer?.name || 'Cash Sale']: the customer column of the
    history table (line 637). *)
Definition customerLabel (c : option Customer) : string :=
  or_else_string
    (match c with
     | Some c' => name c'
     | None => None
     end) "Cash Sale".

(** The [onChange] of the quantity input (line 462). *)
Definition onQuantityInput (index : Z) (text : string) (invoice : Invoice)
  : Completion Invoice :=
  handleItemChange index (SetQuantity (or_else (parseFloat text) zero)) invoice.

(** The [onChange] of the rate input (line 473). *)
Definition onRateInput (index : Z) (text : string) (invoice : Invoice)
  : Completion Invoice :=
  handleItemChange index (SetRate (or_else (parseFloat text) zero)) invoice.

(** The bodies sent to the invoice store, in order. *)
Definition posts (effects : list Effect) : list Invoice :=
  omap (fun e => match e with Post body => Some body | _ => None end) effects.

(** The messages shown with [alert], in order. *)
Definition alerts (effects : list Effect) : list string :=
  omap (fun e => match e with Alert m => Some m | _ => None end) effects.

Definition isSetLoading (e : Effect) : bool :=
  match e with
  | SetLoading _ => true
  | _ => false
  end.

(** The actions that edit rows, discount or tax rate, and the ones that
    edit the rest of the form. *)
Definition isMoneyEdit (a : Action) : bool :=
  match a with
  | ItemChange _ _ | DiscountChange _ | GSTChange _ | AddItem | RemoveItem _ =>
      true
  | _ => false
  end.

Definition isDetailEdit (a : Action) : bool :=
  match a with
  | PaymentTypeChange _ | CustomerChange _ _ | DueDateChange _
  | NotesChange _ | TermsChange _ => true
  | _ => false
  end.

(** A row whose amount is its quantity times its rate. *)
Definition RowConsistent (item : LineItem) : Prop :=
  amount item = mul (quantity item) (rate item).

(** ** Facts about [trim] *)

Lemma trimStart_empty s : trimStart s = ""%string <-> allWhiteSpace s = true.
Proof.
  induction s as [|c s IH]; simpl; [split; reflexivity|].
  destruct (isWhiteSpace c); simpl; [exact IH|]. split; discriminate.
Qed.

Lemma trimStart_head s c r : trimStart s = String c r -> isWhiteSpace c = false.
Proof.
  induction s as [|d s IH]; simpl; [discriminate|].
  destruct (isWhiteSpace d) eqn:E; [exact IH|]. now intros [= <- _].
Qed.

Lemma trimEnd_empty s : trimEnd s = ""%string <-> allWhiteSpace s = true.
Proof.
  induction s as [|c s IH]; simpl; [split; reflexivity|].
  destruct (trimEnd s) as [|d t].
  - destruct (isWhiteSpace c); simpl; [|split; discriminate].
    split; [intros _; now apply IH | reflexivity].
  - rewrite andb_true_iff. split; [discriminate|].
    intros [_ H]. apply IH in H. discriminate.
Qed.

(** [s.trim()] is empty exactly for the texts made of white space only. *)
Lemma trim_empty s : trim s = ""%string <-> allWhiteSpace s = true.
Proof.
  unfold trim. rewrite trimEnd_empty. split.
  - intros H. destruct (trimStart s) as [|c r] eqn:E.
    + now apply trimStart_empty.
    + simpl in H. rewrite (trimStart_head _ _ _ E) in H. discriminate.
  - intros H. apply trimStart_empty in H. now rewrite H.
Qed.

(** ** Facts about the arithmetic *)

Lemma add_reduced x y : Reduced (add x y).
Proof.
  destruct x as [|s|a], y as [|t|b]; simpl; trivial.
  - destruct (Bool.eqb s t); exact I.
  - apply Qred_involutive.
Qed.

Lemma add_zero_r x : Reduced x -> add x zero = x.
Proof.
  destruct x as [|s|a]; simpl; intros Hx; trivial.
  f_equal. rewrite <- Hx at 2. apply Qred_complete. ring.
Qed.

Lemma or_else_zero_normalised x : Normalised (or_else x zero).
Proof.
  unfold Normalised, or_else.
  destruct (truthy x) eqn:E.
  - now rewrite E.
  - reflexivity.
Qed.

Lemma sumAmounts_from_reduced items acc :
  Reduced acc ->
  Reduced (fold_left (fun sum item => add sum (amount item)) items acc).
Proof.
  revert acc. induction items as [|it items IH]; intros acc Hacc; simpl.
  - exact Hacc.
  - apply IH, add_reduced.
Qed.

Lemma sumAmounts_reduced items : Reduced (sumAmounts items).
Proof. apply sumAmounts_from_reduced. reflexivity. Qed.

Lemma sumAmounts_snoc items it :
  sumAmounts (items ++ [it]) = add (sumAmounts items) (amount it).
Proof. unfold sumAmounts. now rewrite fold_left_app. Qed.

Lemma sumAmounts_blank items :
  sumAmounts (items ++ [blankItem]) = sumAmounts items.
Proof.
  rewrite sumAmounts_snoc. apply add_zero_r, sumAmounts_reduced.
Qed.

(** ** Facts about [calculateTotals] *)

#[local] Arguments or_else : simpl never.
#[local] Arguments add : simpl never.
#[local] Arguments sub : simpl never.
#[local] Arguments mul : simpl never.
#[local] Arguments div : simpl never.

Lemma withTotals_consistent inv newItems :
  Normalised (discount inv) -> Normalised (gst_rate inv) ->
  WellFormed
    (withTotals inv newItems
       (calculateTotals newItems (discount inv) (gst_rate inv))).
Proof.
  intros Hd Hg.
  split; [split|..]; simpl; try assumption;
    unfold Normalised in *; rewrite ?Hd, ?Hg; reflexivity.
Qed.

Lemma emptyInvoice_wf : WellFormed emptyInvoice.
Proof. split; [split|..]; reflexivity. Qed.

Lemma handleItemChange_wf index e inv inv' :
  WellFormed inv -> handleItemChange index e inv = Returns inv' ->
  WellFormed inv'.
Proof.
  intros [_ Hd Hg]. unfold handleItemChange.
  destruct (at_index (items inv) index); [|discriminate].
  intros [= <-]. now apply withTotals_consistent.
Qed.

Lemma handleDiscountChange_wf value inv :
  WellFormed inv -> WellFormed (handleDiscountChange value inv).
Proof.
  intros [_ _ Hg]. unfold Normalised in Hg.
  pose proof (or_else_zero_normalised (parseFloat value)) as Hd.
  unfold Normalised in Hd.
  split; [split|..]; simpl; try assumption; rewrite ?Hd, ?Hg; reflexivity.
Qed.

Lemma handleGSTChange_wf value inv :
  WellFormed inv -> WellFormed (handleGSTChange value inv).
Proof.
  intros [[Hs _ _] Hd _]. unfold Normalised in Hd.
  pose proof (or_else_zero_normalised (parseFloat value)) as Hg.
  unfold Normalised in Hg.
  split; [split|..]; simpl; try assumption;
    rewrite ?Hd, ?Hg, ?Hs; reflexivity.
Qed.

Lemma addItem_wf inv : WellFormed inv -> WellFormed (addItem inv).
Proof.
  intros [[Hs Hg Ht] Hd Hr].
  split; [split|..]; simpl; try assumption.
  now rewrite sumAmounts_blank.
Qed.

Lemma removeItem_wf index inv : WellFormed inv -> WellFormed (removeItem index inv).
Proof.
  intros Hwf. unfold removeItem.
  destruct (1 <? Z.of_nat (length (items inv))); [|exact Hwf].
  destruct Hwf as [_ Hd Hg]. now apply withTotals_consistent.
Qed.

Lemma createInvoice_wf post inv :
  WellFormed inv -> WellFormed (fst (createInvoice post inv)).
Proof.
  intros Hwf. unfold createInvoice.
  destruct (validateForSubmission inv); [exact Hwf|].
  destruct (post inv) as [|[|]]; simpl;
    first [exact Hwf | exact emptyInvoice_wf].
Qed.

Lemma step_wf inv a : WellFormed inv -> WellFormed (step inv a).
Proof.
  intros Hwf. unfold step.
  destruct a; simpl;
    try (destruct Hwf as [[Hs Hg Ht] Hd Hr];
         split; [split|..]; simpl; assumption).
  - destruct (handleItemChange index e inv) eqn:E; [|exact Hwf].
    eapply handleItemChange_wf; eassumption.
  - now apply handleDiscountChange_wf.
  - now apply handleGSTChange_wf.
  - now apply addItem_wf.
  - now apply removeItem_wf.
  - now apply createInvoice_wf.
Qed.

Lemma run_wf actions inv : WellFormed inv -> WellFormed (run actions inv).
Proof.
  revert inv. induction actions as [|a actions IH]; intros inv Hwf; simpl.
  - exact Hwf.
  - apply IH, step_wf, Hwf.
Qed.

(** ** The model on the form's scenarios *)

Example widget_at_18_percent :
  items describedInvoice =
    [{| description := "Widget"; quantity := Finite 2; rate := Finite 50;
        amount := Finite 100 |}] /\
  subtotal describedInvoice = Finite 100 /\
  gst_amount describedInvoice = Finite 18 /\
  total describedInvoice = Finite 118.
Proof. repeat split. Qed.

Example widget_discounted_by_20 :
  let inv := handleDiscountChange "20" describedInvoice in
  subtotal inv = Finite 100 /\
  gst_amount inv = Finite (72 # 5) /\
  total inv = Finite (472 # 5).
Proof. repeat split. Qed.

Example calculateTotals_scenario :
  calculateTotals (items describedInvoice) (Finite 20) (Finite 18) =
    {| totals_subtotal := Finite 100;
       totals_gstAmount := Finite (72 # 5);
       totals_total := Finite (472 # 5) |}.
Proof. reflexivity. Qed.

(** ** Invariants 1-3 along every run *)

Lemma sumOfFirst_app k (xs ys : list LineItem) :
  (k <= length xs)%nat -> sumOfFirst k (xs ++ ys) = sumOfFirst k xs.
Proof.
  induction k as [|k IH]; intros Hk; cbn [sumOfFirst]; [reflexivity|].
  rewrite IH by lia. now rewrite lookup_app_l by lia.
Qed.

(** The reduce of line 87 adds the amounts up in row order. *)
Lemma sumAmounts_in_row_order (rows : list LineItem) :
  sumAmounts rows = sumOfAmounts rows.
Proof.
  unfold sumOfAmounts.
  induction rows as [|row rows IH] using rev_ind; [reflexivity|].
  rewrite sumAmounts_snoc, length_app, Nat.add_1_r. cbn [sumOfFirst].
  rewrite sumOfFirst_app by lia. rewrite <- IH.
  rewrite lookup_app_r by lia. now rewrite Nat.sub_diag.
Qed.

(** C1: starting from the initial draft, after every call of a sequence of
    handler calls (in particular of [handleItemChange], [addItem],
    [removeItem], [handleDiscountChange] and [handleGSTChange] calls) the
    subtotal is the sum of the amounts of the rows, added in row order,
    the tax amount is (subtotal - discount) * gst_rate / 100 and the
    total is (subtotal - discount) + gst_amount.  With rows of amounts
    100 and 7, a discount of 20 and a tax rate of 18 the subtotal is 107,
    the tax amount 15.66 and the total 102.66.  The discounted base is
    not clamped: a discount of 20 at a tax rate of 18 on an empty invoice
    stores the negative tax amount -18/5. *)
Theorem totals_invariants_after_every_call :
  (forall (actions : list Action) (n : nat),
     let inv := run (take n actions) emptyInvoice in
     subtotal inv = sumOfAmounts (items inv) /\
     gst_amount inv =
       div (mul (sub (subtotal inv) (discount inv)) (gst_rate inv)) hundred /\
     total inv = add (sub (subtotal inv) (discount inv)) (gst_amount inv)) /\
  (let inv :=
     run [ItemChange 0 (SetQuantity (Finite 2)); ItemChange 0 (SetRate (Finite 50));
          AddItem; ItemChange 1 (SetRate (Finite 7));
          DiscountChange "20"; GSTChange "18"] emptyInvoice in
   amount <$> items inv = [Finite 100; Finite 7] /\
   sumOfAmounts (items inv) = Finite 107 /\
   subtotal inv = Finite 107 /\
   gst_amount inv = Finite (783 # 50) /\
   total inv = Finite (5133 # 50)) /\
  (let inv := run [DiscountChange "20"; GSTChange "18"] emptyInvoice in
   lt (subtotal inv) (discount inv) = true /\
   gst_amount inv = Finite (-18 # 5) /\
   lt (gst_amount inv) zero = true).
Proof.
  split; [|split].
  - intros actions n inv.
    destruct (run_wf (take n actions) emptyInvoice emptyInvoice_wf)
      as [[Hs Hg Ht] _ _].
    fold inv in Hs, Hg, Ht.
    rewrite sumAmounts_in_row_order in Hs. auto.
  - vm_compute. repeat split.
  - vm_compute. auto.
Qed.

(** ** Submission *)

Lemma truthy_string_false s : truthy_string s = false <-> s = ""%string.
Proof. destruct s; simpl; split; intros H; congruence. Qed.

Lemma hasDescription_false item : hasDescription item = false <-> Blank item.
Proof. apply truthy_string_false. Qed.

Lemma no_description_iff (l : list LineItem) :
  existsb hasDescription l = false <-> Forall Blank l.
Proof.
  induction l as [|it l IH]; simpl.
  - split; [constructor | reflexivity].
  - rewrite orb_false_iff, IH, hasDescription_false. split.
    + intros [H1 H2]. now constructor.
    + intros H. inversion H; subst. now split.
Qed.

Lemma some_description_iff (l : list LineItem) :
  existsb hasDescription l = true <-> Exists (fun it => ~ Blank it) l.
Proof.
  rewrite Exists_exists, existsb_exists. split.
  - intros (it & Hin & Hd). exists it. split.
    + now apply list_elem_of_In.
    + intros Hb. apply hasDescription_false in Hb. congruence.
  - intros (it & Hin & Hd). exists it. split.
    + now apply list_elem_of_In.
    + destruct (hasDescription it) eqn:E; [reflexivity|].
      now apply hasDescription_false in E.
Qed.

Lemma customerNameGiven_false c :
  customerNameGiven c = false <-> CustomerNameMissing c.
Proof.
  unfold customerNameGiven, CustomerNameMissing.
  destruct c as [c'|].
  - destruct (name c') as [n|] eqn:En.
    + rewrite truthy_string_false. split.
      * intros H. right. exists c'. split; [reflexivity|].
        right. exists n. now split.
      * intros [H|(c'' & [= <-] & [H|(n' & Hn & Ht)])]; congruence.
    + split; [|reflexivity]. intros _. right. exists c'. now split; [|left].
  - split; [now left | reflexivity].
Qed.

Lemma isCredit_true t : isCredit t = true <-> t = Credit.
Proof. destruct t; simpl; split; congruence. Qed.

Section Submission.

(** The invoice store behind [axios.post]. *)
Variable post : Invoice -> PostReply.


(** A resolved request whose response carries no data is neither a
    success nor a failure for [createInvoice]: the request was sent, the
    draft stays and no message is shown. *)
Lemma createInvoice_without_data (inv : Invoice) :
  validateForSubmission inv = None -> post inv = Resolved false ->
  createInvoice post inv = (inv, [SetLoading true; Post inv; SetLoading false]).
Proof. intros Hv Hp. unfold createInvoice. now rewrite Hv, Hp. Qed.

End Submission.


(** ** Validation *)

(** The item check of line 185 comes first and returns: a credit bill
    without a customer whose only item is blank is reported for its item,
    so the customer check alone does not decide the result. *)
Lemma customer_check_is_shadowed :
  ~ (forall inv : Invoice,
       payment_type inv = Credit -> CustomerNameMissing (customer inv) ->
       validateForSubmission inv = Some MissingCustomerName).
Proof.
  intros H.
  specialize (H (handlePaymentTypeChange Credit emptyInvoice) eq_refl).
  discriminate H. now left.
Qed.

(** C3: the two checks are made in the order of lines 185-193.
    Validation fails with MissingLineItemDescription exactly when no item
    has a description that is non-blank after trimming; when some item
    has one, it fails with MissingCustomerName exactly when the payment
    type is Credit and the customer is absent or its name is absent or
    trims to the empty string; it succeeds exactly in the remaining case,
    so nothing else is validated.  A single blank row gives the first
    failure, and a credit bill with one described item and no customer
    gives the second. *)
Theorem validateForSubmission_cases :
  (forall inv : Invoice,
    (validateForSubmission inv = Some MissingLineItemDescription <->
       Forall Blank (items inv)) /\
    (validateForSubmission inv = Some MissingCustomerName <->
       Exists (fun it => ~ Blank it) (items inv) /\
       payment_type inv = Credit /\ CustomerNameMissing (customer inv)) /\
    (validateForSubmission inv = None <->
       Exists (fun it => ~ Blank it) (items inv) /\
       (payment_type inv = Cash \/ ~ CustomerNameMissing (customer inv)))) /\
  validateForSubmission emptyInvoice = Some MissingLineItemDescription /\
  validateForSubmission
    {| payment_type := Credit; customer := None;
       items := [{| description := "X"; quantity := Finite 1;
                    rate := Finite 10; amount := Finite 10 |}];
       subtotal := Finite 10; discount := zero; gst_rate := zero;
       gst_amount := zero; total := Finite 10;
       notes := ""; terms := ""; due_date := None |}
  = Some MissingCustomerName.
Proof.
  split; [|split; reflexivity].
  intros inv. unfold validateForSubmission.
  pose proof (no_description_iff (items inv)) as Hnone.
  pose proof (some_description_iff (items inv)) as Hsome.
  pose proof (customerNameGiven_false (customer inv)) as Hname.
  pose proof (isCredit_true (payment_type inv)) as Hcredit.
  destruct (existsb hasDescription (items inv)); simpl.
  - assert (Hex : Exists (fun it => ~ Blank it) (items inv)) by now apply Hsome.
    assert (Hnf : ~ Forall Blank (items inv)).
    { intros Hf. apply Hnone in Hf. discriminate. }
    destruct (isCredit (payment_type inv)); simpl.
    + assert (Hc : payment_type inv = Credit) by now apply Hcredit.
      destruct (customerNameGiven (customer inv)); simpl.
      * assert (Hg : ~ CustomerNameMissing (customer inv)).
        { intros Hm. apply Hname in Hm. discriminate. }
        intuition congruence.
      * assert (Hm : CustomerNameMissing (customer inv)) by now apply Hname.
        intuition congruence.
    + assert (Hc : payment_type inv = Cash).
      { destruct (payment_type inv); [reflexivity|].
        destruct Hcredit as [_ Hcredit]. discriminate (Hcredit eq_refl). }
      intuition congruence.
  - assert (Hf : Forall Blank (items inv)) by now apply Hnone.
    assert (Hne : ~ Exists (fun it => ~ Blank it) (items inv)).
    { intros He. apply Hsome in He. discriminate. }
    intuition congruence.
Qed.

(** ** Removing a row *)

Lemma filterFrom_outside index k (xs : list LineItem) :
  index < k \/ k + Z.of_nat (length xs) <= index ->
  filterFrom (dropIndex index) k xs = xs.
Proof.
  revert k. induction xs as [|x xs IH]; intros k Hout; simpl; [reflexivity|].
  simpl in Hout.
  destruct (Z.eqb_spec k index) as [->|Hne]; simpl; [lia|].
  f_equal. apply IH. lia.
Qed.

Lemma filterFrom_inside index k (xs : list LineItem) :
  k <= index < k + Z.of_nat (length xs) ->
  filterFrom (dropIndex index) k xs = delete (Z.to_nat (index - k)) xs.
Proof.
  revert k. induction xs as [|x xs IH]; intros k Hin; simpl in *; [lia|].
  destruct (Z.eqb_spec k index) as [->|Hne]; simpl.
  - rewrite Z.sub_diag. simpl. apply filterFrom_outside. lia.
  - replace (Z.to_nat (index - k)) with (S (Z.to_nat (index - (k + 1)))) by lia.
    simpl. f_equal. apply IH. lia.
Qed.

Lemma filterFrom_length index k (xs : list LineItem) :
  (length xs <= S (length (filterFrom (dropIndex index) k xs)))%nat.
Proof.
  revert k. induction xs as [|x xs IH]; intros k; simpl; [lia|].
  destruct (Z.eqb_spec k index) as [->|Hne]; simpl.
  - rewrite filterFrom_outside by lia. lia.
  - specialize (IH (k + 1)). lia.
Qed.

(** C4: [removeItem] never leaves fewer than one row.  With exactly one
    row it returns the draft unchanged, whatever the index; with more
    rows and an index inside the list it drops the row at that index,
    keeps the others in order and stores the totals recomputed over the
    remaining rows. *)
Theorem removeItem_keeps_one_row (index : Z) (inv : Invoice) :
  (1 <= length (items inv))%nat ->
  (1 <= length (items (removeItem index inv)))%nat /\
  (length (items inv) = 1%nat -> removeItem index inv = inv) /\
  ((1 < length (items inv))%nat ->
   0 <= index < Z.of_nat (length (items inv)) ->
   let newItems := delete (Z.to_nat index) (items inv) in
   items (removeItem index inv) = newItems /\
   length (items (removeItem index inv)) = (length (items inv) - 1)%nat /\
   subtotal (removeItem index inv) = sumAmounts newItems /\
   gst_amount (removeItem index inv) =
     div (mul (sub (sumAmounts newItems) (or_else (discount inv) zero))
              (or_else (gst_rate inv) zero)) hundred /\
   total (removeItem index inv) =
     add (sub (sumAmounts newItems) (or_else (discount inv) zero))
         (gst_amount (removeItem index inv)) /\
   discount (removeItem index inv) = discount inv /\
   gst_rate (removeItem index inv) = gst_rate inv /\
   payment_type (removeItem index inv) = payment_type inv /\
   customer (removeItem index inv) = customer inv).
Proof.
  intros Hlen. unfold removeItem.
  destruct (Z.ltb_spec 1 (Z.of_nat (length (items inv)))) as [Hmany|Hone].
  - split; [|split].
    + simpl. pose proof (filterFrom_length index 0 (items inv)). lia.
    + lia.
    + intros _ Hidx. simpl.
      rewrite filterFrom_inside by lia. rewrite Z.sub_0_r.
      repeat split.
      rewrite length_delete; [reflexivity|].
      apply lookup_lt_is_Some. lia.
  - split; [exact Hlen|]. split; [reflexivity|]. lia.
Qed.

Lemma removeItem_keeps_one_row_witness :
  removeItem 0 emptyInvoice = emptyInvoice /\
  items (removeItem 1 twoRows) = take 1 (items twoRows) /\
  subtotal twoRows = Finite 57 /\
  subtotal (removeItem 1 twoRows) = Finite 50.
Proof.
  split; [|split; [|split]].
  - apply (removeItem_keeps_one_row 0 emptyInvoice); simpl; lia.
  - apply (removeItem_keeps_one_row 1 twoRows); simpl; lia.
  - reflexivity.
  - reflexivity.
Defined.

(** C10: on a draft with more than one row, [removeItem] with an index
    outside the list (negative, or at least the number of rows) returns
    normally and filters nothing out, so the rows are the same; on a draft
    whose stored totals are consistent (as they are after every handler
    call) the recomputed subtotal, tax amount and total are the stored
    ones, so the whole draft is unchanged. *)
Theorem removeItem_outside_is_identity (index : Z) (inv : Invoice) :
  (1 < length (items inv))%nat ->
  index < 0 \/ Z.of_nat (length (items inv)) <= index ->
  dispatch (RemoveItem index) inv = Returns (removeItem index inv) /\
  items (removeItem index inv) = items inv /\
  (WellFormed inv ->
   subtotal (removeItem index inv) = subtotal inv /\
   gst_amount (removeItem index inv) = gst_amount inv /\
   total (removeItem index inv) = total inv /\
   removeItem index inv = inv).
Proof.
  intros Hlen Hout. split; [reflexivity|].
  unfold removeItem.
  destruct (Z.ltb_spec 1 (Z.of_nat (length (items inv)))) as [_|Hle]; [|lia].
  rewrite filterFrom_outside by lia.
  split; [reflexivity|].
  intros [[Hs Hg Ht] Hd Hr]. unfold Normalised in Hd, Hr.
  assert (E : withTotals inv (items inv)
                (calculateTotals (items inv) (discount inv) (gst_rate inv)) = inv).
  { destruct inv; unfold withTotals, calculateTotals; simpl in *.
    rewrite Hd, Hr, <- Hs, <- Hg, <- Ht. reflexivity. }
  rewrite E. auto.
Qed.

Lemma removeItem_outside_is_identity_witness :
  removeItem 2 twoRows = twoRows /\ removeItem (-1) twoRows = twoRows.
Proof.
  split.
  - apply (removeItem_outside_is_identity 2 twoRows);
      [simpl; lia | right; simpl; lia | split; [split|..]; reflexivity].
  - apply (removeItem_outside_is_identity (-1) twoRows);
      [simpl; lia | left; lia | split; [split|..]; reflexivity].
Defined.

(** ** Payment type and customer *)

Lemma step_customer_only_on_credit inv a :
  offered a inv = true ->
  CustomerOnlyOnCredit inv -> CustomerOnlyOnCredit (step inv a).
Proof.
  unfold CustomerOnlyOnCredit, step. intros Hoff Hinv.
  destruct a; simpl in *; try exact Hinv.
  - unfold handleItemChange.
    destruct (at_index (items inv) index); [exact Hinv | exact Hinv].
  - unfold removeItem.
    destruct (1 <? Z.of_nat (length (items inv))); exact Hinv.
  - destruct type; [congruence | reflexivity].
  - intros _. now apply isCredit_true.
  - unfold createInvoice.
    destruct (validateForSubmission inv); [exact Hinv|].
    destruct (post inv) as [|[|]]; simpl; first [exact Hinv | congruence].
Qed.

Lemma run_customer_only_on_credit actions inv :
  offeredAll actions inv = true ->
  CustomerOnlyOnCredit inv -> CustomerOnlyOnCredit (run actions inv).
Proof.
  revert inv. induction actions as [|a actions IH]; intros inv Hoff Hinv.
  - exact Hinv.
  - simpl in Hoff. apply andb_true_iff in Hoff as [Ha Hrest].
    simpl. apply IH; [exact Hrest|]. now apply step_customer_only_on_credit.
Qed.

Lemma offeredAll_take actions n inv :
  offeredAll actions inv = true -> offeredAll (take n actions) inv = true.
Proof.
  revert n inv. induction actions as [|a actions IH]; intros [|n] inv H;
    simpl in *; try reflexivity.
  apply andb_true_iff in H as [Ha Hrest].
  rewrite Ha. simpl. now apply IH.
Qed.

(** C5, as stated, fails: [handleCustomerChange] does not look at the
    payment type, so one customer edit on the initial (Cash) draft leaves a
    customer record on a cash bill. *)
Lemma customer_on_a_cash_bill :
  ~ (forall actions : list Action,
       CustomerOnlyOnCredit (run actions emptyInvoice)).
Proof.
  intros H. specialize (H [CustomerChange NameField "Bob"]).
  unfold CustomerOnlyOnCredit in H. simpl in H.
  discriminate H. discriminate.
Qed.

(** C5 (amended): [handleCustomerChange] can be called whatever the
    payment type; it keeps the payment type and stores a customer record,
    created with just the written field when none was there.  The customer
    is present only on credit bills after every call of every sequence of
    handler calls from the initial draft in which the customer edits are
    those the form allows, that is, issued while the payment type is
    Credit. *)
Theorem customer_only_on_credit_through_the_form :
  (forall (actions : list Action) (n : nat),
     offeredAll actions emptyInvoice = true ->
     CustomerOnlyOnCredit (run (take n actions) emptyInvoice)) /\
  (forall field value inv,
     dispatch (CustomerChange field value) inv =
       Returns (handleCustomerChange field value inv) /\
     payment_type (handleCustomerChange field value inv) = payment_type inv /\
     customer (handleCustomerChange field value inv) =
       Some (spreadCustomer (customer inv) field value)) /\
  (forall value,
     spreadCustomer None NameField value =
       {| name := Some value; mobile := None; address := None |} /\
     spreadCustomer None MobileField value =
       {| name := None; mobile := Some value; address := None |} /\
     spreadCustomer None AddressField value =
       {| name := None; mobile := None; address := Some value |}).
Proof.
  split; [|split].
  - intros actions n Hoff.
    apply run_customer_only_on_credit.
    + now apply offeredAll_take.
    + intros H. now contradiction H.
  - intros field value inv. repeat split.
  - intros value. repeat split.
Qed.

Lemma customer_only_on_credit_through_the_form_witness :
  CustomerOnlyOnCredit
    (run (take 3 [PaymentTypeChange Credit; CustomerChange NameField "Bob";
                  PaymentTypeChange Cash; AddItem]) emptyInvoice) /\
  customer (run [PaymentTypeChange Credit; CustomerChange NameField "Bob"]
              emptyInvoice)
  = Some {| name := Some "Bob"%string; mobile := None; address := None |}.
Proof.
  split.
  - apply (proj1 customer_only_on_credit_through_the_form
             [PaymentTypeChange Credit; CustomerChange NameField "Bob";
              PaymentTypeChange Cash; AddItem] 3%nat).
    reflexivity.
  - reflexivity.
Defined.

(** C6: [handlePaymentTypeChange Cash] always leaves no customer, whatever
    was there; [handlePaymentTypeChange Credit] changes the payment type
    and nothing else, the customer included. *)
Theorem handlePaymentTypeChange_customer (inv : Invoice) :
  customer (handlePaymentTypeChange Cash inv) = None /\
  payment_type (handlePaymentTypeChange Cash inv) = Cash /\
  handlePaymentTypeChange Credit inv =
    {| payment_type := Credit;
       customer := customer inv;
       items := items inv;
       subtotal := subtotal inv;
       discount := discount inv;
       gst_rate := gst_rate inv;
       gst_amount := gst_amount inv;
       total := total inv;
       notes := notes inv;
       terms := terms inv;
       due_date := due_date inv |} /\
  handlePaymentTypeChange Cash inv =
    {| payment_type := Cash;
       customer := None;
       items := items inv;
       subtotal := subtotal inv;
       discount := discount inv;
       gst_rate := gst_rate inv;
       gst_amount := gst_amount inv;
       total := total inv;
       notes := notes inv;
       terms := terms inv;
       due_date := due_date inv |} /\
  dispatch (PaymentTypeChange Credit) inv =
    Returns (handlePaymentTypeChange Credit inv) /\
  dispatch (PaymentTypeChange Cash) inv =
    Returns (handlePaymentTypeChange Cash inv).
Proof. repeat split. Qed.

(** ** Lenient numeric input *)












(** ** Item edits at a bad index *)

(** C9, as stated, fails: with an index that is not a position of the
    list, [newItems[index]] is [undefined] and the property write of line
    98 throws a TypeError. *)
Lemma handleItemChange_bad_index_throws :
  ~ (forall (index : Z) (e : ItemEdit) (inv : Invoice),
       index < 0 \/ Z.of_nat (length (items inv)) <= index ->
       exists inv', handleItemChange index e inv = Returns inv').
Proof.
  intros H.
  destruct (H 1 (SetDescription "x") emptyInvoice) as [inv' Hr].
  - right. simpl. lia.
  - discriminate Hr.
Qed.

Lemma at_index_None {A : Type} (xs : list A) index :
  at_index xs index = None <-> index < 0 \/ Z.of_nat (length xs) <= index.
Proof.
  unfold at_index. destruct (Z.ltb_spec index 0) as [Hneg|Hpos].
  - split; [now left | reflexivity].
  - rewrite lookup_ge_None. lia.
Qed.

(** C9 (amended): [handleItemChange] throws a TypeError exactly when the
    index is not a position of the item list (negative, or at least the
    number of rows); nothing is installed then, so the draft stays as it
    was.  For an index inside the list it returns normally with the row
    at that index edited. *)
Theorem handleItemChange_index (index : Z) (e : ItemEdit) (inv : Invoice) :
  (handleItemChange index e inv = Throws TypeError <->
     index < 0 \/ Z.of_nat (length (items inv)) <= index) /\
  (index < 0 \/ Z.of_nat (length (items inv)) <= index ->
     step inv (ItemChange index e) = inv) /\
  (0 <= index < Z.of_nat (length (items inv)) ->
     exists item inv',
       items inv !! Z.to_nat index = Some item /\
       handleItemChange index e inv = Returns inv' /\
       items inv' = <[Z.to_nat index := applyItemEdit e item]> (items inv) /\
       length (items inv') = length (items inv)).
Proof.
  pose proof (at_index_None (items inv) index) as Hnone.
  unfold step, dispatch, handleItemChange.
  destruct (at_index (items inv) index) as [item|] eqn:E.
  - assert (Hin : 0 <= index < Z.of_nat (length (items inv))).
    { destruct (Z.lt_ge_cases index 0) as [Hn|Hn];
        [|destruct (Z.lt_ge_cases index (Z.of_nat (length (items inv))))];
        try lia; (assert (Some item = None) by (apply Hnone; lia)); discriminate. }
    split; [|split].
    + split; [discriminate | lia].
    + lia.
    + intros _. exists item. eexists. split; [|split; [reflexivity|split]].
      * unfold at_index in E. destruct (index <? 0); [discriminate | exact E].
      * reflexivity.
      * simpl. apply length_insert.
  - assert (Hout : index < 0 \/ Z.of_nat (length (items inv)) <= index)
      by now apply Hnone.
    split; [|split].
    + split; [intros _; exact Hout | reflexivity].
    + reflexivity.
    + lia.
Qed.

Lemma handleItemChange_index_witness :
  step emptyInvoice (ItemChange 1 (SetQuantity (Finite 3))) = emptyInvoice /\
  step emptyInvoice (ItemChange (-1) (SetDescription "x")) = emptyInvoice /\
  handleItemChange 1 (SetQuantity (Finite 3)) emptyInvoice = Throws TypeError.
Proof.
  split; [|split].
  - apply (handleItemChange_index 1 (SetQuantity (Finite 3)) emptyInvoice).
    right. simpl. lia.
  - apply (handleItemChange_index (-1) (SetDescription "x") emptyInvoice).
    left. lia.
  - apply (handleItemChange_index 1 (SetQuantity (Finite 3)) emptyInvoice).
    right. simpl. lia.
Defined.

(** ** Sign of a parsed number *)

Lemma isDigit_value c : isDigit c = true -> 0 <= digitValue c <= 9.
Proof. unfold isDigit, digitValue. lia. Qed.

Lemma readDigits_nonneg s acc n v m r :
  readDigits s acc n = (v, m, r) -> 0 <= acc -> 0 <= v.
Proof.
  revert acc n. induction s as [|c s IH]; intros acc n; simpl.
  - intros [= <- _ _]. trivial.
  - destruct (isDigit c) eqn:Ed.
    + intros Hr Hacc. apply (IH _ _ Hr).
      pose proof (isDigit_value c Ed). lia.
    + intros [= <- _ _]. trivial.
Qed.

Lemma pow10_pos k : (0 < pow10 k)%Q.
Proof.
  unfold pow10. destruct (Z.leb_spec 0 k) as [Hk|Hk].
  - change 0%Q with (inject_Z 0). rewrite <- Zlt_Qlt. apply Z.pow_pos_nonneg; lia.
  - apply Qinv_lt_0_compat.
    change 0%Q with (inject_Z 0). rewrite <- Zlt_Qlt. apply Z.pow_pos_nonneg; lia.
Qed.

Lemma scaled_nonneg m k : 0 <= m -> (0 <= Qred (inject_Z m * pow10 k))%Q.
Proof.
  intros Hm. rewrite Qred_correct. apply Qmult_le_0_compat.
  - change 0%Q with (inject_Z 0). now rewrite <- Zle_Qle.
  - apply Qlt_le_weak, pow10_pos.
Qed.

Lemma readUnsignedDecimal_nonneg s q :
  readUnsignedDecimal s = Some q -> (0 <= q)%Q.
Proof.
  unfold readUnsignedDecimal.
  destruct (readDigits s 0 0) as [[ip ni] r] eqn:E1.
  assert (Hip : 0 <= ip) by (eapply readDigits_nonneg; [exact E1 | lia]).
  destruct r as [|c r'].
  - destruct (0 <? ni); [|discriminate]. intros [= <-].
    rewrite Qred_correct. change 0%Q with (inject_Z 0). now rewrite <- Zle_Qle.
  - destruct (code c =? 46).
    + destruct (readDigits r' ip ni) as [[m n] r''] eqn:E2.
      assert (Hm : 0 <= m) by (eapply readDigits_nonneg; [exact E2 | lia]).
      destruct (0 <? n); [|discriminate]. intros [= <-].
      now apply scaled_nonneg.
    + destruct (0 <? ni); [|discriminate]. intros [= <-].
      now apply scaled_nonneg.
Qed.

Lemma readUnsigned_nonneg s : NonNegative (readUnsigned s).
Proof.
  unfold readUnsigned, NonNegative.
  destruct (String.prefix "Infinity" s); [now right|].
  destruct (readUnsignedDecimal s) as [q|] eqn:E; [right | now left].
  simpl. apply Qle_bool_iff. now apply readUnsignedDecimal_nonneg in E.
Qed.

Lemma parseFloat_unsigned_nonneg value :
  hasMinusSign value = false -> NonNegative (parseFloat value).
Proof.
  unfold hasMinusSign, parseFloat.
  destruct (trimStart value) as [|c r]; [now left|].
  intros ->. destruct (code c =? 43); apply readUnsigned_nonneg.
Qed.

Lemma or_else_zero_nonneg x :
  le zero (or_else x zero) = true <-> lt x zero = false.
Proof.
  unfold or_else. destruct x as [|s|q]; simpl.
  - split; reflexivity.
  - destruct s; simpl; split; congruence.
  - unfold Qis_zero, Qle_bool. destruct q as [qn qd]. simpl.
    destruct (Z.eqb_spec qn 0) as [->|Hne]; simpl.
    + split; reflexivity.
    + unfold Qle_bool. simpl. rewrite negb_false_iff. reflexivity.
Qed.

Lemma nonneg_not_below_zero x : NonNegative x -> lt x zero = false.
Proof.
  intros [->|H]; [reflexivity|].
  destruct x as [|s|q]; simpl in *; [reflexivity|..]; now rewrite H.
Qed.

(** C8, as stated, fails: the text "-5" is a number for [parseFloat], and
    the negative discount is stored as it is. *)
Lemma negative_discount_is_stored :
  ~ (forall (value : string) (inv : Invoice),
       le zero (discount (handleDiscountChange value inv)) = true).
Proof.
  intros H. specialize (H "-5"%string emptyInvoice). discriminate H.
Qed.

(** C8 (amended): [handleDiscountChange] stores [parseFloat(value) || 0].
    The stored discount is at least zero exactly when the text does not
    parse to a negative number, in particular whenever the text, after
    its leading white space, does not start with a minus sign; "-5" stores
    the discount -5.  The items are kept and the subtotal stored is the
    sum of their amounts, so the subtotal is unaffected on every draft
    whose subtotal was that sum. *)
Theorem handleDiscountChange_stores (value : string) (inv : Invoice) :
  discount (handleDiscountChange value inv) = or_else (parseFloat value) zero /\
  (le zero (discount (handleDiscountChange value inv)) = true <->
     lt (parseFloat value) zero = false) /\
  (hasMinusSign value = false ->
     le zero (discount (handleDiscountChange value inv)) = true) /\
  discount (handleDiscountChange "-5" inv) = Finite (-5) /\
  items (handleDiscountChange value inv) = items inv /\
  subtotal (handleDiscountChange value inv) = sumAmounts (items inv) /\
  (subtotal inv = sumAmounts (items inv) ->
     subtotal (handleDiscountChange value inv) = subtotal inv).
Proof.
  split; [reflexivity|]. split; [|split; [|split; [|split; [|split]]]].
  - apply or_else_zero_nonneg.
  - intros Hsign. apply or_else_zero_nonneg, nonneg_not_below_zero.
    now apply parseFloat_unsigned_nonneg.
  - reflexivity.
  - reflexivity.
  - reflexivity.
  - intros Hs. simpl. now rewrite Hs.
Qed.

Lemma handleDiscountChange_stores_witness :
  le zero (discount (handleDiscountChange " 12.5e1 rupees" twoRows)) = true /\
  subtotal (handleDiscountChange "20" twoRows) = subtotal twoRows /\
  total (handleDiscountChange "20" twoRows) = Finite 37.
Proof.
  split; [|split].
  - apply (handleDiscountChange_stores " 12.5e1 rupees" twoRows). reflexivity.
  - apply (handleDiscountChange_stores "20" twoRows). reflexivity.
  - reflexivity.
Defined.

(** ** Further invariants of the form *)

Lemma Forall_filterFrom {A : Type} (P : A -> Prop) keep k (xs : list A) :
  Forall P xs -> Forall P (filterFrom keep k xs).
Proof.
  intros H. revert k. induction H as [|x xs Hx Hxs IH]; intros k; simpl.
  - constructor.
  - destruct (keep x k); [constructor; [exact Hx|]|]; apply IH.
Qed.

Lemma at_index_Some {A : Type} (xs : list A) index x :
  at_index xs index = Some x ->
  xs !! Z.to_nat index = Some x /\ 0 <= index < Z.of_nat (length xs).
Proof.
  unfold at_index. destruct (Z.ltb_spec index 0) as [|Hpos]; [discriminate|].
  intros H. split; [exact H|]. apply lookup_lt_Some in H. lia.
Qed.

Lemma applyItemEdit_consistent e item :
  RowConsistent item -> RowConsistent (applyItemEdit e item).
Proof. intros H. destruct e; simpl; [exact H | reflexivity | reflexivity]. Qed.

Lemma step_rows_consistent inv a :
  Forall RowConsistent (items inv) -> Forall RowConsistent (items (step inv a)).
Proof.
  intros H. unfold step.
  destruct a; simpl; try exact H.
  - unfold handleItemChange.
    destruct (at_index (items inv) index) as [item|] eqn:E; [|exact H].
    simpl. apply Forall_insert; [exact H|].
    apply applyItemEdit_consistent.
    apply at_index_Some in E as [E _].
    eapply Forall_lookup_1; eassumption.
  - apply Forall_app_2; [exact H|]. repeat constructor.
  - unfold removeItem.
    destruct (1 <? Z.of_nat (length (items inv))); [|exact H].
    simpl. now apply Forall_filterFrom.
  - unfold createInvoice.
    destruct (validateForSubmission inv); [exact H|].
    destruct (post inv) as [|[|]]; simpl; try exact H.
    repeat constructor.
Qed.

(** X1: in every draft reached from the initial one, whatever the handler
    calls, the amount of every row is its quantity times its rate. *)
Theorem rows_amount_is_quantity_times_rate (actions : list Action) :
  Forall (fun item => amount item = mul (quantity item) (rate item))
    (items (run actions emptyInvoice)).
Proof.
  change (Forall RowConsistent (items (run actions emptyInvoice))).
  assert (H : Forall RowConsistent (items emptyInvoice))
    by (repeat constructor).
  revert H. generalize emptyInvoice.
  induction actions as [|a actions IH]; intros inv H; simpl; [exact H|].
  apply IH, step_rows_consistent, H.
Qed.

Lemma step_keeps_a_row inv a :
  (1 <= length (items inv))%nat -> (1 <= length (items (step inv a)))%nat.
Proof.
  intros H. unfold step.
  destruct a; simpl; try exact H.
  - unfold handleItemChange.
    destruct (at_index (items inv) index); [|exact H].
    simpl. now rewrite length_insert.
  - rewrite length_app. simpl. lia.
  - unfold removeItem.
    destruct (Z.ltb_spec 1 (Z.of_nat (length (items inv)))); [|exact H].
    simpl. pose proof (filterFrom_length index 0 (items inv)). lia.
  - unfold createInvoice.
    destruct (validateForSubmission inv); [exact H|].
    destruct (post inv) as [|[|]]; simpl; first [exact H | lia].
Qed.

(** X2: the form never runs out of rows: every draft reached from the
    initial one, through any handler calls (submissions and removals at
    any index included), has at least one row. *)
Theorem items_never_empty (actions : list Action) :
  (1 <= length (items (run actions emptyInvoice)))%nat.
Proof.
  assert (H : (1 <= length (items emptyInvoice))%nat) by (simpl; lia).
  revert H. generalize emptyInvoice.
  induction actions as [|a actions IH]; intros inv H; simpl; [exact H|].
  apply IH, step_keeps_a_row, H.
Qed.

Lemma normalised_not_NaN x : Normalised x -> x <> NaN.
Proof. intros H ->. discriminate H. Qed.

(** X3: the discount and the tax rate of every draft reached from the
    initial one are numbers: whatever texts were typed, neither is ever
    [NaN], and [discount || 0] and [gst_rate || 0] are the stored values
    themselves. *)
Theorem discount_and_rate_never_NaN (actions : list Action) :
  let inv := run actions emptyInvoice in
  discount inv <> NaN /\ gst_rate inv <> NaN /\
  or_else (discount inv) zero = discount inv /\
  or_else (gst_rate inv) zero = gst_rate inv.
Proof.
  destruct (run_wf actions emptyInvoice emptyInvoice_wf) as [_ Hd Hg].
  repeat split; try assumption; now apply normalised_not_NaN.
Qed.

(** ** How the edits compose *)

Lemma filterFrom_app {A : Type} (keep : A -> Z -> bool) k (xs ys : list A) :
  filterFrom keep k (xs ++ ys) =
  filterFrom keep k xs ++ filterFrom keep (k + Z.of_nat (length xs)) ys.
Proof.
  revert k. induction xs as [|x xs IH]; intros k; cbn [filterFrom app length].
  - now rewrite Z.add_0_r.
  - rewrite Nat2Z.inj_succ, IH.
    replace (k + 1 + Z.of_nat (length xs)) with (k + Z.succ (Z.of_nat (length xs)))
      by lia.
    now destruct (keep x k).
Qed.

Lemma withTotals_stored inv :
  WellFormed inv ->
  withTotals inv (items inv)
    (calculateTotals (items inv) (discount inv) (gst_rate inv)) = inv.
Proof.
  intros [[Hs Hg Ht] Hd Hr]. unfold Normalised in Hd, Hr.
  destruct inv; unfold withTotals, calculateTotals; simpl in *.
  rewrite Hd, Hr, <- Hs, <- Hg, <- Ht. reflexivity.
Qed.

(** X4: adding a row and removing it again gives back the draft: on a
    draft with at least one row and consistent totals, [removeItem] at
    the position of the row [addItem] appended returns the draft as it
    was before [addItem]. *)
Theorem addItem_then_removeItem (inv : Invoice) :
  WellFormed inv -> (1 <= length (items inv))%nat ->
  removeItem (Z.of_nat (length (items inv))) (addItem inv) = inv.
Proof.
  intros Hwf Hlen. unfold removeItem.
  cbn [items addItem]. rewrite length_app. cbn [length].
  destruct (Z.ltb_spec 1 (Z.of_nat (length (items inv) + 1))) as [_|]; [|lia].
  rewrite filterFrom_app, filterFrom_outside by lia.
  cbn [filterFrom]. rewrite Z.add_0_l, Z.eqb_refl. cbn [negb].
  rewrite app_nil_r.
  etransitivity; [|exact (withTotals_stored inv Hwf)].
  reflexivity.
Qed.

Lemma addItem_then_removeItem_witness :
  removeItem 2 (addItem twoRows) = twoRows /\
  removeItem 1 (addItem emptyInvoice) = emptyInvoice.
Proof.
  split.
  - apply (addItem_then_removeItem twoRows);
      [split; [split|..]; reflexivity | simpl; lia].
  - apply (addItem_then_removeItem emptyInvoice);
      [split; [split|..]; reflexivity | simpl; lia].
Defined.

(** X5: of a run of discount edits only the last one counts, and of a
    run of tax rate edits only the last one: after any number of such
    edits the draft is the one the last text alone gives, so typing the
    same text again changes nothing. *)
Theorem last_discount_and_last_rate_win (vs : list string) (v : string)
    (inv : Invoice) :
  run ((DiscountChange <$> vs) ++ [DiscountChange v]) inv =
    handleDiscountChange v inv /\
  run ((GSTChange <$> vs) ++ [GSTChange v]) inv = handleGSTChange v inv.
Proof.
  split; revert inv; induction vs as [|w vs IH]; intros inv;
    try reflexivity; cbn [fmap list_fmap app run fold_left] in *.
  - unfold run in IH. rewrite IH. reflexivity.
  - unfold run in IH. rewrite IH. reflexivity.
Qed.

(** X6: the discount edit, the tax rate edit and [addItem] commute with
    one another: applied in either order, any two of them leave the same
    draft, on every draft and for all texts. *)
Theorem discount_rate_and_addItem_commute (d g : string) (inv : Invoice) :
  handleGSTChange g (handleDiscountChange d inv) =
    handleDiscountChange d (handleGSTChange g inv) /\
  handleDiscountChange d (addItem inv) = addItem (handleDiscountChange d inv) /\
  handleGSTChange g (addItem inv) = addItem (handleGSTChange g inv).
Proof.
  split; [reflexivity|].
  unfold handleDiscountChange, handleGSTChange, calculateTotals.
  cbn [items addItem discount gst_rate subtotal gst_amount total
       payment_type customer notes terms due_date
       totals_subtotal totals_gstAmount totals_total].
  rewrite sumAmounts_blank. split; reflexivity.
Qed.

Lemma sumAmounts_map xs ys :
  amount <$> xs = amount <$> ys -> sumAmounts xs = sumAmounts ys.
Proof.
  unfold sumAmounts. generalize zero.
  revert ys. induction xs as [|x xs IH]; intros [|y ys] acc H;
    try discriminate; [reflexivity|].
  simpl in *. injection H as Hxy Hrest. rewrite Hxy. now apply IH.
Qed.

(** X7: editing a description moves no money: on a draft with consistent
    totals and for an index inside the list, [handleItemChange] with a
    new description returns a draft with the same quantities, rates and
    amounts in every row and the same subtotal, tax amount and total. *)
Theorem description_edit_keeps_money (index : Z) (v : string) (inv : Invoice) :
  WellFormed inv ->
  0 <= index < Z.of_nat (length (items inv)) ->
  exists inv',
    handleItemChange index (SetDescription v) inv = Returns inv' /\
    (description <$> items inv' !! Z.to_nat index) = Some v /\
    quantity <$> items inv' = quantity <$> items inv /\
    rate <$> items inv' = rate <$> items inv /\
    amount <$> items inv' = amount <$> items inv /\
    subtotal inv' = subtotal inv /\
    gst_amount inv' = gst_amount inv /\
    total inv' = total inv.
Proof.
  intros Hwf Hidx. unfold handleItemChange.
  destruct (at_index (items inv) index) as [item|] eqn:E.
  2:{ apply at_index_None in E. lia. }
  apply at_index_Some in E as [E _].
  eexists. split; [reflexivity|].
  set (newItems := <[Z.to_nat index := applyItemEdit (SetDescription v) item]>
                     (items inv)).
  assert (Hq : quantity <$> newItems = quantity <$> items inv).
  { subst newItems. rewrite list_fmap_insert. apply list_insert_id.
    now rewrite list_lookup_fmap, E. }
  assert (Hr : rate <$> newItems = rate <$> items inv).
  { subst newItems. rewrite list_fmap_insert. apply list_insert_id.
    now rewrite list_lookup_fmap, E. }
  assert (Ha : amount <$> newItems = amount <$> items inv).
  { subst newItems. rewrite list_fmap_insert. apply list_insert_id.
    now rewrite list_lookup_fmap, E. }
  assert (Hsum : sumAmounts newItems = sumAmounts (items inv))
    by now apply sumAmounts_map.
  destruct Hwf as [[Hs Hg Ht] Hd Hg']. unfold Normalised in Hd, Hg'.
  cbn [items subtotal gst_amount total withTotals calculateTotals
       totals_subtotal totals_gstAmount totals_total].
  rewrite Hsum, Hd, Hg', <- Hs, <- Hg, <- Ht.
  repeat split; try assumption.
  subst newItems. rewrite list_lookup_insert_eq by lia. reflexivity.
Qed.

Lemma description_edit_keeps_money_witness :
  exists inv',
    handleItemChange 1 (SetDescription "Gadget") twoRows = Returns inv' /\
    (description <$> items inv' !! Z.to_nat 1) = Some "Gadget"%string /\
    quantity <$> items inv' = quantity <$> items twoRows /\
    rate <$> items inv' = rate <$> items twoRows /\
    amount <$> items inv' = amount <$> items twoRows /\
    subtotal inv' = subtotal twoRows /\
    gst_amount inv' = gst_amount twoRows /\
    total inv' = total twoRows.
Proof.
  apply (description_edit_keeps_money 1 "Gadget" twoRows);
    [split; [split|..]; reflexivity | simpl; lia].
Defined.

Lemma step_ItemChange_outside index e inv :
  at_index (items inv) index = None -> step inv (ItemChange index e) = inv.
Proof. intros E. unfold step, dispatch, handleItemChange. now rewrite E. Qed.

Lemma step_ItemChange_inside index e inv item :
  at_index (items inv) index = Some item ->
  step inv (ItemChange index e) =
    let newItems := <[Z.to_nat index := applyItemEdit e item]> (items inv) in
    withTotals inv newItems
      (calculateTotals newItems (discount inv) (gst_rate inv)).
Proof. intros E. unfold step, dispatch, handleItemChange. now rewrite E. Qed.

Lemma at_index_insert {A : Type} (xs : list A) index x y :
  at_index xs index = Some y ->
  at_index (<[Z.to_nat index := x]> xs) index = Some x.
Proof.
  intros E. apply at_index_Some in E as [_ Hidx]. unfold at_index.
  destruct (Z.ltb_spec index 0); [lia|].
  apply list_lookup_insert_eq. lia.
Qed.

(** X8: on one row, quantity and rate can be entered in either order:
    the two [handleItemChange] calls leave the same draft, whatever the
    index (outside the list both orders leave the draft alone). *)
Theorem quantity_and_rate_commute (index : Z) (q r : number) (inv : Invoice) :
  run [ItemChange index (SetQuantity q); ItemChange index (SetRate r)] inv =
  run [ItemChange index (SetRate r); ItemChange index (SetQuantity q)] inv.
Proof.
  unfold run. cbn [fold_left].
  destruct (at_index (items inv) index) as [item|] eqn:E.
  - rewrite (step_ItemChange_inside index (SetQuantity q) inv item E).
    rewrite (step_ItemChange_inside index (SetRate r) inv item E).
    cbv zeta.
    erewrite !step_ItemChange_inside
      by (cbn [items withTotals]; eapply at_index_insert, E).
    cbv zeta. cbn [items withTotals discount gst_rate].
    rewrite !list_insert_insert_eq. reflexivity.
  - rewrite (step_ItemChange_outside index (SetQuantity q) inv E).
    rewrite (step_ItemChange_outside index (SetRate r) inv E).
    rewrite (step_ItemChange_outside index (SetQuantity q) inv E).
    reflexivity.
Qed.

(** ** Customer inputs, payment type and labels *)

Lemma or_else_string_empty v : or_else_string (Some v) "" = v.
Proof. destruct v; reflexivity. Qed.

(** X9: a customer input shows what was typed into it: after
    [handleCustomerChange field value] the input of that field shows
    [value], and the inputs of the two other fields show what they showed
    before, whether or not a customer record existed. *)
Theorem customer_input_reads_back (field : CustomerField) (value : string)
    (inv : Invoice) :
  customerInputValue field (handleCustomerChange field value inv) = value /\
  (forall other, other <> field ->
     customerInputValue other (handleCustomerChange field value inv) =
     customerInputValue other inv).
Proof.
  split.
  - unfold customerInputValue. cbn [customer handleCustomerChange].
    destruct field; cbn; apply or_else_string_empty.
  - intros other Hne. unfold customerInputValue.
    cbn [customer handleCustomerChange].
    destruct (customer inv) as [c|]; destruct field, other;
      try congruence; reflexivity.
Qed.

(** X10: going to Cash and back to Credit loses the customer: whatever
    customer the draft had, after the two payment type changes the draft
    has none, and a draft with a described row is then refused by the
    validation for its missing customer name. *)
Theorem cash_and_back_needs_the_name_again (inv : Invoice) :
  Exists (fun it => trim (description it) <> ""%string) (items inv) ->
  let inv' := run [PaymentTypeChange Cash; PaymentTypeChange Credit] inv in
  customer inv' = None /\
  payment_type inv' = Credit /\
  validateForSubmission inv' = Some MissingCustomerName.
Proof.
  intros Hex inv'. subst inv'.
  split; [reflexivity|]. split; [reflexivity|].
  apply some_description_iff in Hex.
  unfold run, step. cbn [fold_left dispatch].
  unfold validateForSubmission, handlePaymentTypeChange.
  cbn [items payment_type customer]. rewrite Hex. reflexivity.
Qed.

Lemma cash_and_back_needs_the_name_again_witness :
  let inv := run [PaymentTypeChange Credit; CustomerChange NameField "Asha"]
               describedInvoice in
  validateForSubmission inv = None /\
  validateForSubmission
    (run [PaymentTypeChange Cash; PaymentTypeChange Credit] inv)
  = Some MissingCustomerName.
Proof.
  split; [reflexivity|].
  apply (cash_and_back_needs_the_name_again
           (run [PaymentTypeChange Credit; CustomerChange NameField "Asha"]
              describedInvoice)).
  apply Exists_cons_hd. discriminate.
Defined.

Lemma trim_nonempty n : trim n <> ""%string -> truthy_string n = true.
Proof. destruct n; [intros H; now contradiction H | reflexivity]. Qed.

(** X14: the customer column of the history table is never empty: it is
    'Cash Sale' without a customer, without a name or with an empty name,
    and the name otherwise.  For the customer of a credit draft that
    passed the validation it is that customer's name. *)
Theorem customerLabel_shows_the_name :
  (forall c, customerLabel c <> ""%string) /\
  (forall c, customerLabel c = "Cash Sale"%string \/
             exists c', c = Some c' /\ name c' = Some (customerLabel c)) /\
  (forall inv,
     validateForSubmission inv = None -> payment_type inv = Credit ->
     exists c n, customer inv = Some c /\ name c = Some n /\
                 trim n <> ""%string /\ customerLabel (customer inv) = n).
Proof.
  split; [|split].
  - intros [[[[|a n]|] m ad]|]; cbn; discriminate.
  - intros [[[[|a n]|] m ad]|]; cbn; try (now left).
    right. eexists. split; reflexivity.
  - intros inv Hv Hc. unfold validateForSubmission in Hv.
    destruct (negb (existsb hasDescription (items inv))); [discriminate|].
    rewrite Hc in Hv. cbn in Hv.
    destruct (customerNameGiven (customer inv)) eqn:Hg; [|discriminate].
    unfold customerNameGiven in Hg.
    destruct (customer inv) as [c|]; [|discriminate].
    destruct (name c) as [n|] eqn:Hn; [|discriminate].
    exists c, n. repeat split; try assumption.
    + intros Ht. rewrite Ht in Hg. discriminate.
    + unfold customerLabel, or_else_string. rewrite Hn.
      destruct n; [discriminate Hg | reflexivity].
Qed.

(** ** What a submission does to the outside *)

(** X11: every call of [createInvoice] switches the loading flag on
    first and off last and touches it nowhere in between; it posts to
    the invoice store exactly once, with the draft as the body, when the
    validation passes and not at all when it fails; and it shows at most
    one message. *)
Theorem createInvoice_effects (post : Invoice -> PostReply) (inv : Invoice) :
  (exists middle,
     snd (createInvoice post inv) =
       SetLoading true :: middle ++ [SetLoading false] /\
     forallb (fun e => negb (isSetLoading e)) middle = true) /\
  posts (snd (createInvoice post inv)) =
    match validateForSubmission inv with
    | None => [inv]
    | Some _ => []
    end /\
  (length (alerts (snd (createInvoice post inv))) <= 1)%nat.
Proof.
  unfold createInvoice.
  destruct (validateForSubmission inv) as [e|].
  - split; [|split; [reflexivity | cbn; lia]].
    exists [Alert (validationMessage e)]. split; reflexivity.
  - destruct (post inv) as [|[|]]; cbn [snd];
      (split; [|split; [reflexivity | cbn; lia]]).
    + eexists [_; _; _]. split; reflexivity.
    + eexists [_; _; _; _; _]. split; reflexivity.
    + eexists [_]. split; reflexivity.
Qed.

(** ** Numeric texts *)

Lemma trimStart_app_white w v :
  allWhiteSpace w = true -> trimStart (w ++ v) = trimStart v.
Proof.
  induction w as [|c w IH]; simpl; [reflexivity|].
  intros H. apply andb_true_iff in H as [Hc Hw]. rewrite Hc. now apply IH.
Qed.

Lemma parseFloat_app_white w v :
  allWhiteSpace w = true -> parseFloat (w ++ v) = parseFloat v.
Proof. intros H. unfold parseFloat. now rewrite trimStart_app_white. Qed.

(** X13: white space typed before a number does not count: with any run
    of white space in front of the text, the discount edit, the tax rate
    edit and the quantity and rate inputs give the results they give
    without it. *)
Theorem leading_white_space_is_ignored (w v : string) (index : Z) (inv : Invoice) :
  allWhiteSpace w = true ->
  handleDiscountChange (w ++ v) inv = handleDiscountChange v inv /\
  handleGSTChange (w ++ v) inv = handleGSTChange v inv /\
  onQuantityInput index (w ++ v) inv = onQuantityInput index v inv /\
  onRateInput index (w ++ v) inv = onRateInput index v inv.
Proof.
  intros Hw.
  unfold handleDiscountChange, handleGSTChange, onQuantityInput, onRateInput.
  rewrite (parseFloat_app_white w v Hw). repeat split.
Qed.

Lemma leading_white_space_is_ignored_witness :
  handleDiscountChange "  20" twoRows = handleDiscountChange "20" twoRows /\
  discount (handleDiscountChange "  20" twoRows) = Finite 20.
Proof.
  split; [|reflexivity].
  apply (leading_white_space_is_ignored "  " "20" 0 twoRows). reflexivity.
Defined.

Lemma mul_zero_l q : mul zero (Finite q) = zero.
Proof. destruct q. reflexivity. Qed.

(** X17: a quantity text in which [parseFloat] finds no leading number
    (it gives NaN, as for the empty text or for "two") empties the row's
    amount: for a row inside the list whose rate is finite, the quantity
    input with such a text stores quantity 0 and amount 0 in that row and
    keeps its description and rate. *)
Theorem unreadable_quantity_zeroes_the_row (index : Z) (text : string)
    (inv : Invoice) (item : LineItem) (r : Q) :
  parseFloat text = NaN ->
  0 <= index ->
  items inv !! Z.to_nat index = Some item ->
  rate item = Finite r ->
  exists inv',
    onQuantityInput index text inv = Returns inv' /\
    items inv' !! Z.to_nat index =
      Some {| description := description item; quantity := Finite 0;
              rate := Finite r; amount := Finite 0 |} /\
    length (items inv') = length (items inv).
Proof.
  intros Hnan Hpos Hit Hr.
  unfold onQuantityInput, handleItemChange, at_index.
  destruct (Z.ltb_spec index 0); [lia|].
  rewrite Hit, Hnan. eexists. split; [reflexivity|].
  cbn [items withTotals]. split; [|apply length_insert].
  rewrite list_lookup_insert_eq by (now apply lookup_lt_Some in Hit).
  cbn [applyItemEdit]. unfold calculateItemAmount. rewrite Hr.
  change (or_else NaN zero) with zero. now rewrite mul_zero_l.
Qed.

Lemma unreadable_quantity_zeroes_the_row_witness :
  exists inv',
    onQuantityInput 0 "two" describedInvoice = Returns inv' /\
    items inv' !! Z.to_nat 0 =
      Some {| description := "Widget"; quantity := Finite 0;
              rate := Finite 50; amount := Finite 0 |} /\
    length (items inv') = length (items describedInvoice).
Proof.
  apply (unreadable_quantity_zeroes_the_row 0 "two" describedInvoice
           {| description := "Widget"; quantity := Finite 2;
              rate := Finite 50; amount := Finite 100 |} 50);
    [reflexivity | lia | reflexivity | reflexivity].
Defined.

(** ** What an edit leaves alone *)

(** X16: the edits of rows, discount and tax rate never change the
    payment type, the customer, the notes, the terms or the due date,
    thrown or not; the edits of payment type, customer, due date, notes
    and terms never change the rows, the discount, the tax rate or any
    total. *)
Theorem edits_stay_in_their_part (a : Action) (inv : Invoice) :
  (isMoneyEdit a = true ->
   payment_type (step inv a) = payment_type inv /\
   customer (step inv a) = customer inv /\
   notes (step inv a) = notes inv /\
   terms (step inv a) = terms inv /\
   due_date (step inv a) = due_date inv) /\
  (isDetailEdit a = true ->
   items (step inv a) = items inv /\
   subtotal (step inv a) = subtotal inv /\
   discount (step inv a) = discount inv /\
   gst_rate (step inv a) = gst_rate inv /\
   gst_amount (step inv a) = gst_amount inv /\
   total (step inv a) = total inv).
Proof.
  split; intros Ha; destruct a; try discriminate Ha; unfold step; cbn;
    try (repeat split; fail).
  - unfold handleItemChange.
    destruct (at_index (items inv) index); cbn; repeat split.
  - unfold removeItem.
    destruct (1 <? Z.of_nat (length (items inv))); cbn; repeat split.
Qed.

Lemma edits_stay_in_their_part_witness :
  customer (step twoRows (RemoveItem 0)) = customer twoRows /\
  total (step twoRows (PaymentTypeChange Credit)) = total twoRows.
Proof.
  split.
  - apply (edits_stay_in_their_part (RemoveItem 0) twoRows). reflexivity.
  - apply (edits_stay_in_their_part (PaymentTypeChange Credit) twoRows).
    reflexivity.
Defined.

(** ** White space in the validated texts *)

Lemma validation_items_first inv :
  validateForSubmission inv = Some MissingLineItemDescription <->
  existsb hasDescription (items inv) = false.
Proof.
  unfold validateForSubmission.
  destruct (existsb hasDescription (items inv)); cbn.
  - destruct (isCredit (payment_type inv) &&
              negb (customerNameGiven (customer inv))); split; discriminate.
  - split; reflexivity.
Qed.

(** X12: spaces are no description and no name: the validation refuses a
    draft for its missing item description exactly when every row's
    description consists of white space only (or is empty), and it never
    accepts a credit draft whose customer name consists of white space
    only. *)
Theorem white_space_does_not_validate (inv : Invoice) :
  (validateForSubmission inv = Some MissingLineItemDescription <->
     Forall (fun it => allWhiteSpace (description it) = true) (items inv)) /\
  (forall c n,
     payment_type inv = Credit -> customer inv = Some c -> name c = Some n ->
     allWhiteSpace n = true -> validateForSubmission inv <> None).
Proof.
  split.
  - rewrite validation_items_first, no_description_iff.
    split; intros H; (eapply Forall_impl; [exact H|]);
      intros it; unfold Blank; apply trim_empty.
  - intros c n Hp Hc Hn Hw. unfold validateForSubmission.
    destruct (negb (existsb hasDescription (items inv))); [discriminate|].
    rewrite Hp, Hc. unfold customerNameGiven. rewrite Hn.
    apply trim_empty in Hw. rewrite Hw. discriminate.
Qed.

Lemma white_space_does_not_validate_witness :
  validateForSubmission
    (run [ItemChange 0 (SetDescription "   "); ItemChange 0 (SetRate (Finite 5))]
       emptyInvoice) = Some MissingLineItemDescription /\
  validateForSubmission
    (run [PaymentTypeChange Credit; CustomerChange NameField "  "]
       describedInvoice) <> None.
Proof.
  split.
  - apply (white_space_does_not_validate
             (run [ItemChange 0 (SetDescription "   ");
                   ItemChange 0 (SetRate (Finite 5))] emptyInvoice)).
    repeat constructor.
  - apply (proj2 (white_space_does_not_validate
             (run [PaymentTypeChange Credit; CustomerChange NameField "  "]
                describedInvoice))
             {| name := Some "  "%string; mobile := None; address := None |}
             "  "%string); reflexivity.
Defined.
